(** * The expense resource of [app/expense.py]

    A shallow embedding of the five Flask handlers of the blueprint
    [/expense] ([create_expense], [get_expenses], [get_expense],
    [update_expense], [delete_expense]) over an explicit model of the
    SQLAlchemy session and of the marshmallow schema they call, and the
    properties of the ownership-checked CRUD contract. *)

From stdpp Require Import gmap strings list fin_maps.

Open Scope string_scope.
Set Warnings "-register-all".

Section Model.

(** The representation of JSON numbers. The handlers store and return
    amounts and never compute with them, so it is left open. *)
Context {number : Type}.

(** ** JSON values: what [request.json] holds *)

Inductive json : Type :=
| JNull
| JBool (b : bool)
| JNum (n : number)
| JStr (s : string)
| JArr (items : list json)
| JObj (fields : gmap string json).

(** ** The model classes of [app.db] *)

(** A row of the table [Expense]. The primary key [id] is the key under
    which the row is stored; it is a natural number, as the converter
    [<int:id>] of the routes matches no negative number. *)
Record Expense : Type := mkExpense {
  title : string;
  amount : number;
  user_id : nat
}.

(** [current_user]: the identity that [jwt_required] resolved. *)
Record User : Type := mkUser { User_id : nat }.

(** The database as one request sees it: the committed rows, and the
    session's view of them, which holds the pending changes as well. *)
Record DB : Type := mkDB {
  stored : gmap nat Expense;
  session : gmap nat Expense
}.

(** ** HTTP responses *)

(** What [expense_schema.dump] produces: [{id, title, amount}]. *)
Record ExpenseOut : Type := mkExpenseOut {
  out_id : nat;
  out_title : string;
  out_amount : number
}.

Inductive Body : Type :=
| JsonExpense (e : ExpenseOut)          (* jsonify(expense_schema.dump(e)) *)
| JsonExpenses (es : list ExpenseOut)   (* jsonify(expenses_schema.dump(es)) *)
| JsonError (error : string)            (* jsonify(error=...) *)
| ErrMessages (messages : gmap string (list string)) (* err.messages *)
| EmptyBody                             (* the empty string *)
| AbortPage.                            (* the page of an aborted request *)

Definition Response : Type := Body * nat.

Definition status (r : Response) : nat := r.2.

(** An HTTP exception raised inside a handler. *)
Inductive Abort : Type :=
| NotFound              (* abort(404), raised by get_or_404 *)
| InternalServerError.  (* a Python exception nobody catches *)

Definition abort_status (a : Abort) : nat :=
  match a with
  | NotFound => 404
  | InternalServerError => 500
  end.

(** ** The handler monad: state passing over [DB], with [Abort] *)

Definition H (A : Type) : Type := DB → (Abort + A) * DB.

#[global] Instance H_ret : MRet H := λ A a db, (inr a, db).

#[global] Instance H_bind : MBind H := λ A B k m db,
  match m db with
  | (inl e, db') => (inl e, db')
  | (inr a, db') => k a db'
  end.

Definition raise {A} (e : Abort) : H A := λ db, (inl e, db).

(** ** The session of Flask-SQLAlchemy *)

(** [db.get_or_404(Expense, id)] *)
Definition get_or_404 (id : nat) : H Expense := λ db,
  match session db !! id with
  | Some expense => (inr expense, db)
  | None => (inl NotFound, db)
  end.

(** [db.session.add(new_expense)]: the row becomes pending under the
    primary key the store assigns to it, a key that is not in use, which
    is returned so that the handler can name the object afterwards. *)
Definition session_add (new_expense : Expense) : H nat := λ db,
  let id := fresh (dom (session db)) in
  (inr id, mkDB (stored db) (<[id := new_expense]> (session db))).

(** [db.session.delete(expense)] *)
Definition session_delete (id : nat) : H unit := λ db,
  (inr (), mkDB (stored db) (delete id (session db))).

(** [db.session.commit()] *)
Definition session_commit : H unit := λ db,
  (inr (), mkDB (session db) (session db)).

(** [expense.title = v] on an object of the session *)
Definition set_title (id : nat) (v : string) : H unit := λ db,
  (inr (), mkDB (stored db)
     (alter (λ e, mkExpense v (amount e) (user_id e)) id (session db))).

(** [expense.amount = v] on an object of the session *)
Definition set_amount (id : nat) (v : number) : H unit := λ db,
  (inr (), mkDB (stored db)
     (alter (λ e, mkExpense (title e) v (user_id e)) id (session db))).

(** Reading the attributes of an object after a commit loads its row
    again. *)
Definition refresh (id : nat) : H Expense := λ db,
  match session db !! id with
  | Some expense => (inr expense, db)
  | None => (inl InternalServerError, db)
  end.

(** Modelled from the spec: the relationship [expenses] of the class
    [User] of [app.db], the rows whose [user_id] is the user's id, in
    the order of the store. *)
Definition User_expenses (u : User) : H (list (nat * Expense)) := λ db,
  (inr (map_to_list
          (filter (λ row, user_id row.2 = User_id u) (session db))), db).

(** ** The schema of [app.schemas] *)

(** The dict that [expense_schema.load] returns: it has at most the keys
    [title] and [amount]. *)
Record ExpenseIn : Type := mkExpenseIn {
  in_title : option string;
  in_amount : option number
}.

(** [data[key]]: a [KeyError] when the key is absent. *)
Definition item {A} (o : option A) : H A :=
  match o with
  | Some v => mret v
  | None => raise InternalServerError
  end.

(** The validators attached to the two fields: each returns the messages
    of the rules that its value breaks, none when the value is accepted. *)
Variable title_validate : string → list string.
Variable amount_validate : number → list string.

(** Modelled from the spec: the field [title] of the input schema of
    [app.schemas], a text. *)
Definition title_field (v : json) : list string + string :=
  match v with
  | JStr s =>
      match title_validate s with
      | [] => inr s
      | msgs => inl msgs
      end
  | _ => inl ["Not a valid string."]
  end.

(** Modelled from the spec: the field [amount] of the input schema of
    [app.schemas], a number. *)
Definition amount_field (v : json) : list string + number :=
  match v with
  | JNum n =>
      match amount_validate n with
      | [] => inr n
      | msgs => inl msgs
      end
  | _ => inl ["Not a valid number."]
  end.

(** Modelled from the spec: how the schema of [app.schemas] loads one
    required field. An absent field is an error unless the load is
    partial; a present field is deserialized and validated in both
    modes. *)
Definition load_field {A} (partial : bool)
    (deserialize : json → list string + A) (raw : option json)
  : list string + option A :=
  match raw with
  | None =>
      if partial then inr None
      else inl ["Missing data for required field."]
  | Some v =>
      match deserialize v with
      | inl msgs => inl msgs
      | inr a => inr (Some a)
      end
  end.

(** The entry of a field in the error map: none when the field loaded. *)
Definition field_errors {A} (name : string) (r : list string + A)
  : gmap string (list string) :=
  match r with
  | inl msgs => {[ name := msgs ]}
  | inr _ => ∅
  end.

(** Modelled from the spec: [expense_schema.load(json_data, partial)] of
    [app.schemas]. It returns the loaded fields, or the field-level
    error map that [ValidationError.messages] carries. The spec names
    the two fields and no rule for other keys, which are not looked at. *)
Definition load (partial : bool) (json_data : json)
  : gmap string (list string) + ExpenseIn :=
  match json_data with
  | JObj fields =>
      let t := load_field partial title_field (fields !! "title") in
      let a := load_field partial amount_field (fields !! "amount") in
      match t, a with
      | inr t', inr a' => inr (mkExpenseIn t' a')
      | _, _ => inl (field_errors "title" t ∪ field_errors "amount" a)
      end
  | _ => inl {[ "_schema" := ["Invalid input type."] ]}
  end.

(** Modelled from the spec: [expense_schema.dump] of [app.schemas]. *)
Definition dump (id : nat) (expense : Expense) : ExpenseOut :=
  mkExpenseOut id (title expense) (amount expense).

(** ** The handlers of [app/expense.py] *)

(** The message of lines 137 and 241. *)
Definition no_access : string := "У вас немає доступу до ціеї витрати".

(** The message of line 194. *)
Definition no_access_update : string := "У вас немає доступу до цієї витрати".

(** [POST /expense/]. [json_data] is what [request.json] returned at
    line 41. *)
Definition create_expense (current_user : User) (json_data : json)
  : H Response :=
  match load false json_data with
  | inl messages => mret (ErrMessages messages, 422)
  | inr data =>
      t ← item (in_title data);
      a ← item (in_amount data);
      id ← session_add (mkExpense t a (User_id current_user));
      session_commit;;
      new_expense ← refresh id;
      mret (JsonExpense (dump id new_expense), 201)
  end.

(** [GET /expense/] *)
Definition get_expenses (current_user : User) : H Response :=
  expenses ← User_expenses current_user;
  mret (JsonExpenses ((λ row, dump row.1 row.2) <$> expenses), 200).

(** [GET /expense/<int:id>] *)
Definition get_expense (current_user : User) (id : nat) : H Response :=
  expense ← get_or_404 id;
  if bool_decide (user_id expense ≠ User_id current_user)
  then mret (JsonError no_access, 401)
  else mret (JsonExpense (dump id expense), 200).

(** [PATCH /expense/<int:id>]. [json_data] is what [request.json]
    returned at line 196. *)
Definition update_expense (current_user : User) (id : nat)
    (json_data : json) : H Response :=
  expense ← get_or_404 id;
  if bool_decide (user_id expense ≠ User_id current_user)
  then mret (JsonError no_access_update, 401)
  else
    match load true json_data with
    | inl messages => mret (ErrMessages messages, 422)
    | inr data =>
        set_title id (default (title expense) (in_title data));;
        set_amount id (default (amount expense) (in_amount data));;
        session_commit;;
        expense ← refresh id;
        mret (JsonExpense (dump id expense), 200)
    end.

(** [DELETE /expense/<int:id>] *)
Definition delete_expense (current_user : User) (id : nat) : H Response :=
  expense ← get_or_404 id;
  if bool_decide (user_id expense ≠ User_id current_user)
  then mret (JsonError no_access, 401)
  else
    session_delete id;;
    session_commit;;
    mret (EmptyBody, 204).

(** The row that lines 201 and 202 of [update_expense] leave behind. *)
Definition updated (data : ExpenseIn) (expense : Expense) : Expense :=
  mkExpense (default (title expense) (in_title data))
            (default (amount expense) (in_amount data))
            (user_id expense).

(** ** Serving a request *)

(** One request: the handler runs on a session opened on the committed
    rows; an abort becomes its error page; what the session did not
    commit is dropped with it. *)
Definition serve (handler : H Response) (rows : gmap nat Expense)
  : Response * gmap nat Expense :=
  match handler (mkDB rows rows) with
  | (inl e, db) => ((AbortPage, abort_status e), stored db)
  | (inr response, db) => (response, stored db)
  end.

(** The routes of the blueprint, behind [jwt_required]: the caller is
    already authenticated. [POST] and [PATCH] carry the body as
    [request.json] parsed it; a body that it cannot parse, on which it
    aborts the request, is not a [Request]. *)
Inductive Request : Type :=
| POST (json_data : json)
| GET_all
| GET (id : nat)
| PATCH (id : nat) (json_data : json)
| DELETE (id : nat).

Definition route (current_user : User) (r : Request) : H Response :=
  match r with
  | POST json_data => create_expense current_user json_data
  | GET_all => get_expenses current_user
  | GET id => get_expense current_user id
  | PATCH id json_data => update_expense current_user id json_data
  | DELETE id => delete_expense current_user id
  end.

Definition handle (current_user : User) (r : Request)
    (rows : gmap nat Expense) : Response * gmap nat Expense :=
  serve (route current_user r) rows.

(** A sequence of requests, each with its caller, served in order. *)
Fixpoint run (trace : list (User * Request)) (rows : gmap nat Expense)
  : gmap nat Expense :=
  match trace with
  | [] => rows
  | (u, r) :: rest => run rest (handle u r rows).2
  end.

End Model.

(** ** A concrete instance: integer amounts, the validators of the spec *)

(** [title]: a non-empty text. *)
Definition nonempty_title (s : string) : list string :=
  if decide (s = "") then ["Shorter than minimum length 1."] else [].

(** [amount]: a non-negative number. *)
Definition nonnegative_amount (n : Z) : list string :=
  if decide (n < 0)%Z then ["Must be greater than or equal to 0."] else [].

(** Three users and a table in which the first two own one expense
    each. *)
Definition alice : User := mkUser 1.
Definition bob : User := mkUser 2.
Definition carol : User := mkUser 3.

Definition sample_rows : gmap nat (@Expense Z) :=
  <[1 := mkExpense "Rent" 500%Z 1]> (<[2 := mkExpense "Food" 70%Z 2]> ∅).

(** The payloads of [test_full_expense_flow]. *)
Definition post_payload : @json Z :=
  JObj (<["title" := JStr "Expense"]> (<["amount" := JNum 100%Z]> ∅)).

Definition patch_payload : @json Z :=
  JObj (<["title" := JStr "Updated Expense"]> ∅).

(** A payload whose two fields are present and malformed. *)
Definition bad_payload : @json Z :=
  JObj (<["title" := JStr ""]> (<["amount" := JNull]> ∅)).

(** A session of four requests that never deletes expense 2. *)
Definition sample_trace : list (User * @Request Z) :=
  [ (alice, PATCH 2 patch_payload);
    (bob, PATCH 2 patch_payload);
    (alice, DELETE 1);
    (carol, POST post_payload) ].

(** A session of three requests that creates nothing. *)
Definition quiet_trace : list (User * @Request Z) :=
  [ (bob, GET 1);
    (alice, PATCH 1 patch_payload);
    (bob, DELETE 2) ].

(** A session of four requests, none of them Alice's. *)
Definition foreign_trace : list (User * @Request Z) :=
  [ (bob, PATCH 1 patch_payload);
    (carol, DELETE 1);
    (bob, POST post_payload);
    (bob, DELETE 2) ].


(** The objects of two partial updates, one per field. *)
Definition title_fields : gmap string (@json Z) :=
  <["title" := JStr "Updated Expense"]> ∅.

Definition amount_fields : gmap string (@json Z) :=
  <["amount" := JNum 250%Z]> ∅.

(** * Properties *)

Section Properties.

Context {number : Type}.
Variable title_validate : string → list string.
Variable amount_validate : number → list string.

Implicit Types (u : User) (id : nat) (rows : gmap nat (@Expense number)).
Implicit Types (e : @Expense number) (payload : @json number).

Local Abbreviation load := (load title_validate amount_validate).
Local Abbreviation handle := (handle title_validate amount_validate).
Local Abbreviation run := (run title_validate amount_validate).

(** ** The schema *)

Lemma load_field_inr {A} partial
    (deserialize : @json number → list string + A) raw o :
  load_field partial deserialize raw = inr o →
  match raw with
  | None => partial = true ∧ o = None
  | Some v => ∃ a, deserialize v = inr a ∧ o = Some a
  end.
Proof.
  unfold load_field. destruct raw as [v|].
  - destruct (deserialize v) as [msgs|a]; [discriminate|].
    intros [= <-]. by exists a.
  - destruct partial; [|discriminate]. by intros [= <-].
Qed.

Lemma title_field_inr (v : @json number) t :
  title_field title_validate v = inr t →
  v = JStr t ∧ title_validate t = [].
Proof.
  unfold title_field. destruct v as [| | |s| |]; try discriminate.
  destruct (title_validate s) eqn:Hs; [|discriminate].
  by intros [= <-].
Qed.

Lemma amount_field_inr (v : @json number) a :
  amount_field amount_validate v = inr a →
  v = JNum a ∧ amount_validate a = [].
Proof.
  unfold amount_field. destruct v as [| |n| | |]; try discriminate.
  destruct (amount_validate n) eqn:Hn; [|discriminate].
  by intros [= <-].
Qed.

(** A load that succeeds was given an object, and each field it returns
    is the value of that field in the object. *)
Lemma load_inr partial payload data :
  load partial payload = inr data →
  ∃ fields, payload = JObj fields ∧
    load_field partial (title_field title_validate) (fields !! "title")
      = inr (in_title data) ∧
    load_field partial (amount_field amount_validate) (fields !! "amount")
      = inr (in_amount data).
Proof.
  destruct payload as [| | | | |fields]; try discriminate.
  cbn. intros Hd. exists fields. split; [done|].
  destruct (load_field partial _ (fields !! "title")) as [?|t]; [discriminate|].
  destruct (load_field partial _ (fields !! "amount")) as [?|a]; [discriminate|].
  by injection Hd as <-.
Qed.

(** A full load returns both fields. *)
Lemma load_full_inr payload data :
  load false payload = inr data →
  ∃ fields t a, payload = JObj fields ∧
    fields !! "title" = Some (JStr t) ∧
    fields !! "amount" = Some (JNum a) ∧
    data = mkExpenseIn (Some t) (Some a).
Proof.
  intros (fields & -> & Ht & Ha)%load_inr.
  apply load_field_inr in Ht, Ha.
  destruct (fields !! "title") as [vt|] eqn:Hft; [|by destruct Ht].
  destruct (fields !! "amount") as [va|] eqn:Hfa; [|by destruct Ha].
  destruct Ht as (t & [-> _]%title_field_inr & Ht).
  destruct Ha as (a & [-> _]%amount_field_inr & Ha).
  exists fields, t, a. destruct data as [dt da]; simpl in *.
  rewrite Ht, Ha. by repeat split.
Qed.

(** ** What each handler does on a fresh session *)

(** Two attribute writes on the row of [id] amount to one write of the
    final row. *)
Lemma alter_alter_insert (f g : @Expense number → @Expense number) id rows e :
  rows !! id = Some e →
  alter g id (alter f id rows) = <[id := g (f e)]> rows.
Proof.
  intros He. apply map_eq. intros j.
  destruct (decide (id = j)) as [<-|Hne].
  - by rewrite lookup_insert_eq, !lookup_alter_eq, He.
  - by rewrite lookup_insert_ne, !lookup_alter_ne.
Qed.

Ltac run_handler :=
  unfold create_expense, get_expenses, get_expense, update_expense,
    delete_expense, get_or_404, session_add, session_delete, session_commit,
    set_title, set_amount, refresh, User_expenses, item, raise,
    mbind, mret, H_bind, H_ret; cbn.

Lemma get_expense_session u id rows :
  get_expense u id (mkDB rows rows) =
  match rows !! id with
  | None => (inl NotFound, mkDB rows rows)
  | Some e =>
      if bool_decide (user_id e ≠ User_id u)
      then (inr (JsonError no_access, 401), mkDB rows rows)
      else (inr (JsonExpense (dump id e), 200), mkDB rows rows)
  end.
Proof.
  run_handler. destruct (rows !! id) as [e|]; [|done].
  by case_bool_decide.
Qed.

Lemma delete_expense_session u id rows :
  delete_expense u id (mkDB rows rows) =
  match rows !! id with
  | None => (inl NotFound, mkDB rows rows)
  | Some e =>
      if bool_decide (user_id e ≠ User_id u)
      then (inr (JsonError no_access, 401), mkDB rows rows)
      else (inr (EmptyBody, 204), mkDB (delete id rows) (delete id rows))
  end.
Proof.
  run_handler. destruct (rows !! id) as [e|]; [|done].
  by case_bool_decide.
Qed.

Lemma update_expense_session u id payload rows :
  update_expense title_validate amount_validate u id payload (mkDB rows rows) =
  match rows !! id with
  | None => (inl NotFound, mkDB rows rows)
  | Some e =>
      if bool_decide (user_id e ≠ User_id u)
      then (inr (JsonError no_access_update, 401), mkDB rows rows)
      else
        match load true payload with
        | inl messages => (inr (ErrMessages messages, 422), mkDB rows rows)
        | inr data =>
            let rows' := <[id := updated data e]> rows in
            (inr (JsonExpense (dump id (updated data e)), 200),
             mkDB rows' rows')
        end
  end.
Proof.
  run_handler. destruct (rows !! id) as [e|] eqn:He; [|done].
  case_bool_decide; [done|].
  destruct (load true payload) as [messages|data]; [done|]. cbn.
  rewrite (alter_alter_insert _ _ _ _ _ He). cbn.
  by rewrite lookup_insert_eq.
Qed.

Lemma create_expense_session u payload rows :
  create_expense title_validate amount_validate u payload (mkDB rows rows) =
  match load false payload with
  | inl messages => (inr (ErrMessages messages, 422), mkDB rows rows)
  | inr data =>
      match in_title data, in_amount data with
      | Some t, Some a =>
          let id := fresh (dom rows) in
          let rows' := <[id := mkExpense t a (User_id u)]> rows in
          (inr (JsonExpense (mkExpenseOut id t a), 201), mkDB rows' rows')
      | _, _ => (inl InternalServerError, mkDB rows rows)
      end
  end.
Proof.
  run_handler. destruct (load false payload) as [messages|data]; [done|].
  destruct (in_title data) as [t|]; [|done].
  destruct (in_amount data) as [a|]; [|done]. cbn.
  by rewrite lookup_insert_eq.
Qed.

Lemma get_expenses_session u rows :
  get_expenses u (mkDB rows rows) =
  (inr (JsonExpenses
          ((λ row, dump row.1 row.2) <$>
             map_to_list (filter (λ row, user_id row.2 = User_id u) rows)),
        200),
   mkDB rows rows).
Proof. done. Qed.

(** ** What each request does to the table *)

Lemma handle_GET u id rows :
  handle u (GET id) rows =
  match rows !! id with
  | None => ((AbortPage, 404), rows)
  | Some e =>
      if bool_decide (user_id e ≠ User_id u)
      then ((JsonError no_access, 401), rows)
      else ((JsonExpense (dump id e), 200), rows)
  end.
Proof.
  unfold handle, serve, route. rewrite get_expense_session.
  destruct (rows !! id) as [e|]; [|done]. by case_bool_decide.
Qed.

Lemma handle_DELETE u id rows :
  handle u (DELETE id) rows =
  match rows !! id with
  | None => ((AbortPage, 404), rows)
  | Some e =>
      if bool_decide (user_id e ≠ User_id u)
      then ((JsonError no_access, 401), rows)
      else ((EmptyBody, 204), delete id rows)
  end.
Proof.
  unfold handle, serve, route. rewrite delete_expense_session.
  destruct (rows !! id) as [e|]; [|done]. by case_bool_decide.
Qed.

Lemma handle_PATCH u id payload rows :
  handle u (PATCH id payload) rows =
  match rows !! id with
  | None => ((AbortPage, 404), rows)
  | Some e =>
      if bool_decide (user_id e ≠ User_id u)
      then ((JsonError no_access_update, 401), rows)
      else
        match load true payload with
        | inl messages => ((ErrMessages messages, 422), rows)
        | inr data =>
            ((JsonExpense (dump id (updated data e)), 200),
             <[id := updated data e]> rows)
        end
  end.
Proof.
  unfold handle, serve, route. rewrite update_expense_session.
  destruct (rows !! id) as [e|]; [|done]. case_bool_decide; [done|].
  by destruct (load true payload).
Qed.

Lemma handle_POST u payload rows :
  handle u (POST payload) rows =
  match load false payload with
  | inl messages => ((ErrMessages messages, 422), rows)
  | inr data =>
      match in_title data, in_amount data with
      | Some t, Some a =>
          ((JsonExpense (mkExpenseOut (fresh (dom rows)) t a), 201),
           <[fresh (dom rows) := mkExpense t a (User_id u)]> rows)
      | _, _ => ((AbortPage, 500), rows)
      end
  end.
Proof.
  unfold handle, serve, route. rewrite create_expense_session.
  destruct (load false payload) as [messages|data]; [done|].
  destruct (in_title data), (in_amount data); done.
Qed.

Lemma handle_GET_all u rows :
  handle u GET_all rows =
  ((JsonExpenses
      ((λ row, dump row.1 row.2) <$>
         map_to_list (filter (λ row, user_id row.2 = User_id u) rows)),
    200),
   rows).
Proof. done. Qed.

(** The primary key that [session_add] assigns is not in use. *)
Lemma fresh_id_unused rows : rows !! fresh (dom rows) = None.
Proof. apply not_elem_of_dom, is_fresh. Qed.

(** ** The claims *)

(** C1. An id whose record belongs to somebody else makes [get_expense],
    [update_expense] and [delete_expense] answer 401 with the error
    message alone, a response in which the record does not occur and
    which is the same whatever the record holds; an id with no record
    makes each of them answer 404. *)
Theorem foreign_or_missing_id u id payload rows :
  (∀ e, rows !! id = Some e → user_id e ≠ User_id u →
     (handle u (GET id) rows).1 = (JsonError no_access, 401) ∧
     (handle u (PATCH id payload) rows).1 = (JsonError no_access_update, 401) ∧
     (handle u (DELETE id) rows).1 = (JsonError no_access, 401)) ∧
  (∀ e e' rows', rows !! id = Some e → user_id e ≠ User_id u →
     rows' !! id = Some e' → user_id e' ≠ User_id u →
     (handle u (GET id) rows).1 = (handle u (GET id) rows').1 ∧
     (handle u (PATCH id payload) rows).1
       = (handle u (PATCH id payload) rows').1 ∧
     (handle u (DELETE id) rows).1 = (handle u (DELETE id) rows').1) ∧
  (rows !! id = None →
     (handle u (GET id) rows).1 = (AbortPage, 404) ∧
     (handle u (PATCH id payload) rows).1 = (AbortPage, 404) ∧
     (handle u (DELETE id) rows).1 = (AbortPage, 404)).
Proof.
  rewrite !handle_GET, !handle_PATCH, !handle_DELETE.
  split; [|split].
  - intros e -> Hne. by rewrite !bool_decide_eq_true_2.
  - intros e e' rows' -> Hne He' Hne'.
    rewrite handle_GET, handle_PATCH, handle_DELETE, He'.
    by rewrite !bool_decide_eq_true_2.
  - by intros ->.
Qed.

(** C2. A payload that validates makes [create_expense] insert one row,
    owned by the caller, under an id that was not in use, and answer 201
    with its serialization; [get_expense] by the same caller on that id
    then answers 200 with the title and the amount of the payload. *)
Theorem create_then_get u payload data rows :
  load false payload = inr data →
  ∃ fields t a id,
    payload = JObj fields ∧
    fields !! "title" = Some (JStr t) ∧
    fields !! "amount" = Some (JNum a) ∧
    rows !! id = None ∧
    let rows' := <[id := mkExpense t a (User_id u)]> rows in
    handle u (POST payload) rows
      = ((JsonExpense (mkExpenseOut id t a), 201), rows') ∧
    size rows' = S (size rows) ∧
    handle u (GET id) rows'
      = ((JsonExpense (mkExpenseOut id t a), 200), rows').
Proof.
  intros Hload.
  destruct (load_full_inr _ _ Hload) as (fields & t & a & -> & Ht & Ha & ->).
  exists fields, t, a, (fresh (dom rows)).
  pose proof (fresh_id_unused rows) as Hfresh.
  repeat split; try done.
  - by rewrite handle_POST, Hload.
  - by apply map_size_insert_None.
  - rewrite handle_GET, lookup_insert_eq. cbn.
    by rewrite bool_decide_eq_false_2 by (intros Hne; by apply Hne).
Qed.

(** The serialization of a row names its primary key. *)
Lemma dump_inj id id' e e' : dump id e = dump id' e' → id = id'.
Proof. by intros [= -> _ _]. Qed.

(** C3. [get_expenses] answers 200 with the serializations of exactly
    the rows whose [user_id] is the caller's id, each once, and leaves
    the table alone; a caller who owns no row gets the empty list. *)
Theorem list_owned u rows :
  ∃ es,
    handle u GET_all rows = ((JsonExpenses es, 200), rows) ∧
    (∀ x, x ∈ es ↔
       ∃ id e, rows !! id = Some e ∧ user_id e = User_id u ∧ x = dump id e) ∧
    NoDup es ∧
    ((∀ id e, rows !! id = Some e → user_id e ≠ User_id u) → es = []).
Proof.
  eexists. split; [apply handle_GET_all|].
  set (owned := filter (λ row, user_id row.2 = User_id u) rows).
  assert (Hmem : ∀ x, x ∈ (λ row, dump row.1 row.2) <$> map_to_list owned ↔
    ∃ id e, rows !! id = Some e ∧ user_id e = User_id u ∧ x = dump id e).
  { intros x. rewrite list_elem_of_fmap. split.
    - intros ([id e] & -> & Hin). exists id, e.
      apply elem_of_map_to_list in Hin.
      apply map_lookup_filter_Some in Hin as [He Hu]. done.
    - intros (id & e & He & Hu & ->). exists (id, e). split; [done|].
      apply elem_of_map_to_list, map_lookup_filter_Some. done. }
  split; [exact Hmem|]. split.
  - apply NoDup_fmap_2_strong; [|apply NoDup_map_to_list].
    intros [id e] [id' e'] Hin Hin' Heq. cbn in Heq.
    pose proof (dump_inj _ _ _ _ Heq) as <-.
    apply elem_of_map_to_list in Hin, Hin'. congruence.
  - intros Hnone.
    destruct ((λ row, dump row.1 row.2) <$> map_to_list owned)
      as [|x rest] eqn:Hes; [done|].
    assert (Hx : x ∈ x :: rest) by apply list_elem_of_here.
    apply Hmem in Hx as (id & e & He & Hu & _).
    by destruct (Hnone id e He).
Qed.

(** C4. On a record of the caller, a payload that validates in partial
    mode makes [update_expense] answer 200 with the updated record and
    store it under the same id: a field that the payload holds is
    overwritten with the payload's value, a field that it lacks keeps
    its value, and the owner stays. *)
Theorem partial_update u id payload data rows e :
  rows !! id = Some e →
  user_id e = User_id u →
  load true payload = inr data →
  ∃ fields e',
    payload = JObj fields ∧
    handle u (PATCH id payload) rows
      = ((JsonExpense (dump id e'), 200), <[id := e']> rows) ∧
    (fields !! "title" = None → title e' = title e) ∧
    (∀ v, fields !! "title" = Some v → v = JStr (title e')) ∧
    (fields !! "amount" = None → amount e' = amount e) ∧
    (∀ v, fields !! "amount" = Some v → v = JNum (amount e')) ∧
    user_id e' = user_id e.
Proof.
  intros He Hu Hload.
  destruct (load_inr _ _ _ Hload) as (fields & -> & Ht & Ha).
  apply load_field_inr in Ht, Ha.
  exists fields, (updated data e). split; [done|]. split.
  { rewrite handle_PATCH, He, Hload.
    by rewrite bool_decide_eq_false_2 by (intros Hne; by apply Hne). }
  unfold updated. cbn.
  destruct (fields !! "title") as [vt|], (fields !! "amount") as [va|].
  - destruct Ht as (t & [-> _]%title_field_inr & ->).
    destruct Ha as (a & [-> _]%amount_field_inr & ->).
    cbn. repeat split; try done; by intros ? [= <-].
  - destruct Ht as (t & [-> _]%title_field_inr & ->).
    destruct Ha as [_ ->].
    cbn. repeat split; try done; by intros ? [= <-].
  - destruct Ht as [_ ->].
    destruct Ha as (a & [-> _]%amount_field_inr & ->).
    cbn. repeat split; try done; by intros ? [= <-].
  - destruct Ht as [_ ->]. destruct Ha as [_ ->].
    cbn. repeat split; done.
Qed.

(** A request that creates nothing leaves a missing id missing. *)
Lemma handle_keeps_missing u r rows id :
  rows !! id = None →
  (∀ payload, r ≠ POST payload) →
  (handle u r rows).2 !! id = None.
Proof.
  intros Hid Hr. destruct r as [payload| |id0|id0 payload|id0].
  - by destruct (Hr payload).
  - done.
  - rewrite handle_GET. destruct (rows !! id0); [|done].
    by case_bool_decide.
  - rewrite handle_PATCH. destruct (rows !! id0) as [e0|] eqn:He0; [|done].
    case_bool_decide; [done|].
    destruct (load true payload); [done|]. cbn.
    rewrite lookup_insert_ne; [done|]. congruence.
  - rewrite handle_DELETE. destruct (rows !! id0); [|done].
    case_bool_decide; [done|]. cbn.
    by apply lookup_delete_None; right.
Qed.

Lemma run_keeps_missing trace rows id :
  rows !! id = None →
  Forall (λ step, ∀ payload, step.2 ≠ POST payload) trace →
  run trace rows !! id = None.
Proof.
  revert rows. induction trace as [|[u r] rest IH]; intros rows Hid Htrace.
  - done.
  - apply Forall_cons in Htrace as [Hr Hrest]. cbn.
    apply IH; [|done]. by apply handle_keeps_missing.
Qed.

(** C5. On a record of the caller, [delete_expense] removes the row and
    answers 204 with an empty body; after that, and after any further
    requests that create nothing, [delete_expense] and [get_expense] on
    the same id answer 404, whoever calls. *)
Theorem delete_then_missing u id rows e :
  rows !! id = Some e →
  user_id e = User_id u →
  handle u (DELETE id) rows = ((EmptyBody, 204), delete id rows) ∧
  delete id rows !! id = None ∧
  ∀ u' trace,
    Forall (λ step, ∀ payload, step.2 ≠ POST payload) trace →
    (handle u' (DELETE id) (run trace (delete id rows))).1
      = (AbortPage, 404) ∧
    (handle u' (GET id) (run trace (delete id rows))).1
      = (AbortPage, 404).
Proof.
  intros He Hu. split; [|split].
  - rewrite handle_DELETE, He.
    by rewrite bool_decide_eq_false_2 by (intros Hne; by apply Hne).
  - apply lookup_delete_eq.
  - intros u' trace Htrace.
    rewrite handle_DELETE, handle_GET.
    by rewrite run_keeps_missing by (apply lookup_delete_eq || done).
Qed.

(** A field that is present and malformed fails the load in either mode,
    and the error map holds its messages under its name. *)
Lemma load_title_malformed partial (fields : gmap string (@json number)) v msgs :
  fields !! "title" = Some v →
  title_field title_validate v = inl msgs →
  ∃ messages,
    load partial (JObj fields) = inl messages ∧
    messages !! "title" = Some msgs.
Proof.
  intros Hv Hbad. cbn. rewrite Hv. cbn. rewrite Hbad.
  eexists. split; [done|].
  apply lookup_union_Some_l, lookup_singleton_eq.
Qed.

Lemma load_amount_malformed partial (fields : gmap string (@json number)) v msgs :
  fields !! "amount" = Some v →
  amount_field amount_validate v = inl msgs →
  ∃ messages,
    load partial (JObj fields) = inl messages ∧
    messages !! "amount" = Some msgs.
Proof.
  intros Hv Hbad.
  set (t := load_field partial (title_field title_validate) (fields !! "title")).
  exists (field_errors "title" t ∪ field_errors "amount" (inl (B:=option number) msgs)).
  split.
  - cbn. fold t. rewrite Hv. cbn. rewrite Hbad. by destruct t.
  - rewrite lookup_union_r; [apply lookup_singleton_eq|].
    destruct t; cbn; [|done]. by apply lookup_singleton_ne.
Qed.

(** C6. A payload that the schema rejects makes [create_expense] answer
    422 with the error map; so does [update_expense], which validates in
    partial mode, on a record of the caller; and in partial mode a field
    that is present and malformed is rejected, with its messages under
    its name in the error map. *)
Theorem validation_failure u payload rows :
  (∀ messages,
     load false payload = inl messages →
     handle u (POST payload) rows = ((ErrMessages messages, 422), rows)) ∧
  (∀ messages id e,
     rows !! id = Some e → user_id e = User_id u →
     load true payload = inl messages →
     handle u (PATCH id payload) rows = ((ErrMessages messages, 422), rows)) ∧
  (∀ fields v msgs,
     payload = JObj fields →
     fields !! "title" = Some v →
     title_field title_validate v = inl msgs →
     ∃ messages,
       load true payload = inl messages ∧ messages !! "title" = Some msgs) ∧
  (∀ fields v msgs,
     payload = JObj fields →
     fields !! "amount" = Some v →
     amount_field amount_validate v = inl msgs →
     ∃ messages,
       load true payload = inl messages ∧ messages !! "amount" = Some msgs).
Proof.
  repeat split.
  - intros messages Hload. by rewrite handle_POST, Hload.
  - intros messages id e He Hu Hload. rewrite handle_PATCH, He, Hload.
    by rewrite bool_decide_eq_false_2 by (intros Hne; by apply Hne).
  - intros fields v msgs ->. apply load_title_malformed.
  - intros fields v msgs ->. apply load_amount_malformed.
Qed.

(** The statuses that the handlers produce. *)
Lemma handle_status u r rows :
  status (handle u r rows).1 ∈ [200; 201; 204; 401; 404; 422].
Proof.
  destruct r as [payload| |id|id payload|id].
  - rewrite handle_POST.
    destruct (load false payload) as [?|data] eqn:Hload; [set_solver|].
    destruct (load_full_inr _ _ Hload) as (? & t & a & _ & _ & _ & ->).
    set_solver.
  - set_solver.
  - rewrite handle_GET. destruct (rows !! id); [|set_solver].
    case_bool_decide; set_solver.
  - rewrite handle_PATCH. destruct (rows !! id); [|set_solver].
    case_bool_decide; [set_solver|].
    destruct (load true payload); set_solver.
  - rewrite handle_DELETE. destruct (rows !! id); [|set_solver].
    case_bool_decide; set_solver.
Qed.

(** C7. A request that fails (status 422, 401 or 404) leaves the table
    as it was, and the session of the request holds no pending change:
    nothing was written before the failure. *)
Theorem failure_leaves_store u r rows :
  status (handle u r rows).1 = 422 ∨
  status (handle u r rows).1 = 401 ∨
  status (handle u r rows).1 = 404 →
  (handle u r rows).2 = rows ∧
  (route title_validate amount_validate u r (mkDB rows rows)).2
    = mkDB rows rows.
Proof.
  destruct r as [payload| |id|id payload|id]; cbn [route].
  - rewrite handle_POST, create_expense_session.
    destruct (load false payload) as [?|data]; [done|].
    destruct (in_title data), (in_amount data); cbn; try done.
    intros [?|[?|?]]; discriminate.
  - done.
  - rewrite handle_GET, get_expense_session.
    destruct (rows !! id); [|done]. by case_bool_decide.
  - rewrite handle_PATCH, update_expense_session.
    destruct (rows !! id); [|done]. case_bool_decide; [done|].
    destruct (load true payload); [done|]. cbn.
    intros [?|[?|?]]; discriminate.
  - rewrite handle_DELETE, delete_expense_session.
    destruct (rows !! id); [|done]. case_bool_decide; [done|]. cbn.
    intros [?|[?|?]]; discriminate.
Qed.

(** One request keeps the owner of every record that it does not
    delete, and only the owner's [DELETE] deletes. *)
Lemma handle_keeps_owner u r rows id e :
  rows !! id = Some e →
  (∃ e', (handle u r rows).2 !! id = Some e' ∧ user_id e' = user_id e) ∨
  (r = DELETE id ∧ user_id e = User_id u ∧ (handle u r rows).2 !! id = None).
Proof.
  intros He. destruct r as [payload| |id0|id0 payload|id0].
  - left. rewrite handle_POST.
    destruct (load false payload) as [?|data]; [by exists e|].
    destruct (in_title data), (in_amount data); try by exists e.
    exists e. split; [|done]. cbn. rewrite lookup_insert_ne; [done|].
    intros Heq. pose proof (fresh_id_unused rows) as Hf. congruence.
  - left. by exists e.
  - left. exists e. rewrite handle_GET.
    destruct (rows !! id0); [|done]. by case_bool_decide.
  - left. rewrite handle_PATCH.
    destruct (rows !! id0) as [e0|] eqn:He0; [|by exists e].
    case_bool_decide; [by exists e|].
    destruct (load true payload) as [?|data]; [by exists e|]. cbn.
    destruct (decide (id0 = id)) as [->|Hne].
    + exists (updated data e0). rewrite lookup_insert_eq.
      split; [done|]. cbn. congruence.
    + exists e. by rewrite lookup_insert_ne.
  - rewrite handle_DELETE.
    destruct (rows !! id0) as [e0|] eqn:He0; [|left; by exists e].
    case_bool_decide as Hown; [left; by exists e|]. cbn.
    destruct (decide (id0 = id)) as [->|Hne].
    + right. rewrite lookup_delete_eq.
      assert (e0 = e) as -> by congruence.
      split; [done|]. split; [|done].
      by destruct (decide (user_id e = User_id u)).
    + left. exists e. by rewrite lookup_delete_ne.
Qed.

(** A row that a request puts under an id that was free comes from
    [create_expense] and belongs to the caller. *)
Lemma handle_adds_own u r rows id e' :
  rows !! id = None →
  (handle u r rows).2 !! id = Some e' →
  (∃ payload, r = POST payload) ∧ user_id e' = User_id u.
Proof.
  intros Hfree He'. destruct r as [payload| |id0|id0 payload|id0].
  - split; [by exists payload|]. revert He'. rewrite handle_POST.
    destruct (load false payload) as [?|data]; [cbn; congruence|].
    destruct (in_title data) as [t|], (in_amount data) as [a|];
      try (cbn; congruence).
    cbn. intros [[_ <-]|[_ He']]%lookup_insert_Some; [done|].
    congruence.
  - rewrite handle_keeps_missing in He'; [discriminate|done|discriminate].
  - rewrite handle_keeps_missing in He'; [discriminate|done|discriminate].
  - rewrite handle_keeps_missing in He'; [discriminate|done|discriminate].
  - rewrite handle_keeps_missing in He'; [discriminate|done|discriminate].
Qed.

(** The owner of a row that is in the table after a sequence of
    requests is the owner that the row of that id had before, or one of
    the callers of the sequence. *)
Lemma run_owner_origin trace rows id e' :
  run trace rows !! id = Some e' →
  (∃ e, rows !! id = Some e ∧ user_id e = user_id e') ∨
  (∃ step, step ∈ trace ∧ User_id step.1 = user_id e').
Proof.
  revert rows. induction trace as [|[u r] rest IH]; intros rows He'.
  - left. by exists e'.
  - cbn in He'. destruct (IH _ He') as [(e1 & He1 & Hu1)|(step & Hin & Hu)].
    + destruct (rows !! id) as [e|] eqn:He.
      * left. exists e. split; [done|].
        destruct (handle_keeps_owner u r rows id e He)
          as [(e2 & He2 & Hu2)|(_ & _ & Hnone)]; congruence.
      * right. exists (u, r). split; [apply list_elem_of_here|]. cbn.
        destruct (handle_adds_own u r rows id e1 He He1) as [_ <-]. done.
    + right. exists step. split; [by apply list_elem_of_further|done].
Qed.

(** C8. [create_expense] sets [user_id] to the caller's id: a payload
    that validates makes it store one new row, owned by the caller, and
    whatever a request adds to the table was created by that request for
    its caller. No request changes the [user_id] of a record that it
    leaves in the table; [update_expense] writes the title and the
    amount alone; over any sequence of requests that does not delete it,
    a record keeps the owner it has; and after any sequence of requests
    the owner of a row is the owner that the row of that id had at the
    start or a caller of the sequence. *)
Theorem owner_never_changes u rows :
  (∀ payload data,
     load false payload = inr data →
     ∃ id e, rows !! id = None ∧
       handle u (POST payload) rows
         = ((JsonExpense (dump id e), 201), <[id := e]> rows) ∧
       user_id e = User_id u) ∧
  (∀ r id e',
     rows !! id = None → (handle u r rows).2 !! id = Some e' →
     (∃ payload, r = POST payload) ∧ user_id e' = User_id u) ∧
  (∀ payload,
     status (handle u (POST payload) rows).1 = 201 →
     ∃ id e, rows !! id = None ∧
       (handle u (POST payload) rows).2 = <[id := e]> rows ∧
       user_id e = User_id u) ∧
  (∀ r id e e',
     rows !! id = Some e → (handle u r rows).2 !! id = Some e' →
     user_id e' = user_id e) ∧
  (∀ id payload e,
     rows !! id = Some e →
     ∃ t a, (handle u (PATCH id payload) rows).2 !! id
              = Some (mkExpense t a (user_id e))) ∧
  (∀ trace id e,
     rows !! id = Some e →
     Forall (λ step, step.2 ≠ DELETE id) trace →
     ∃ e', run trace rows !! id = Some e' ∧ user_id e' = user_id e) ∧
  (∀ trace id e',
     run trace rows !! id = Some e' →
     (∃ e, rows !! id = Some e ∧ user_id e = user_id e') ∨
     (∃ step, step ∈ trace ∧ User_id step.1 = user_id e')).
Proof.
  split; [|split; [|split; [|split; [|split; [|split]]]]].
  - intros payload data Hload. rewrite handle_POST, Hload.
    destruct (load_full_inr _ _ Hload) as (_ & t & a & _ & _ & _ & ->).
    exists (fresh (dom rows)), (mkExpense t a (User_id u)).
    split; [apply fresh_id_unused|done].
  - intros r id e'. apply handle_adds_own.
  - intros payload. rewrite handle_POST.
    destruct (load false payload) as [?|data]; [discriminate|].
    destruct (in_title data) as [t|], (in_amount data) as [a|];
      try discriminate.
    intros _. exists (fresh (dom rows)), (mkExpense t a (User_id u)).
    split; [apply fresh_id_unused|done].
  - intros r id e e' He He'.
    destruct (handle_keeps_owner u r rows id e He)
      as [(e'' & He'' & Hu)|(_ & _ & Hnone)]; congruence.
  - intros id payload e He. rewrite handle_PATCH, He.
    case_bool_decide; [by exists (title e), (amount e); destruct e|].
    destruct (load true payload) as [?|data].
    + by exists (title e), (amount e); destruct e.
    + cbn. rewrite lookup_insert_eq. by eexists _, _.
  - intros trace. revert rows.
    induction trace as [|[u' r] rest IH]; intros rows id e He Hnodel.
    + by exists e.
    + apply Forall_cons in Hnodel as [Hr Hrest]. cbn in Hr. cbn.
      destruct (handle_keeps_owner u' r rows id e He)
        as [(e1 & He1 & Hu1)|(Hdel & _)]; [|done].
      destruct (IH _ id e1 He1 Hrest) as (e' & He' & Hu').
      exists e'. split; [done|congruence].
  - intros trace id e'. apply run_owner_origin.
Qed.

(** C9. [update_expense] checks the owner before it looks at the
    payload: on a record of somebody else it answers 401 whatever the
    payload is, and so also for a payload that the schema rejects. *)
Theorem update_checks_owner_first u id payload rows e :
  rows !! id = Some e →
  user_id e ≠ User_id u →
  handle u (PATCH id payload) rows
    = ((JsonError no_access_update, 401), rows) ∧
  status (handle u (PATCH id payload) rows).1 ≠ 422.
Proof.
  intros He Hne. rewrite handle_PATCH, He.
  by rewrite bool_decide_eq_true_2.
Qed.

(** C10. On a record of the caller, [update_expense] with the empty
    object answers 200 with the record as it was and leaves the table
    as it was. *)
Theorem empty_update_is_identity u id rows e :
  rows !! id = Some e →
  user_id e = User_id u →
  handle u (PATCH id (JObj ∅)) rows = ((JsonExpense (dump id e), 200), rows).
Proof.
  intros He Hu. rewrite handle_PATCH, He.
  rewrite bool_decide_eq_false_2 by (intros Hne; by apply Hne).
  cbn. rewrite !lookup_empty. cbn.
  assert (updated (mkExpenseIn None None) e = e) as -> by by destruct e.
  by rewrite insert_id.
Qed.

(** ** Further properties of the handlers *)

(** X1. For a request whose body [request.json] has parsed (the
    [json_data] of lines 41 and 196; a body that it cannot parse is not
    among the requests modelled), each route answers with one of the
    statuses that its handler returns and no other, and the handler
    raises nothing but the 404 of [get_or_404]: after a load that
    succeeded, [data["title"]] and [data["amount"]] of [create_expense]
    are there. *)
Theorem status_by_route u r rows :
  match r with
  | POST _ => status (handle u r rows).1 ∈ [201; 422]
  | GET_all => status (handle u r rows).1 = 200
  | GET _ => status (handle u r rows).1 ∈ [200; 401; 404]
  | PATCH _ _ => status (handle u r rows).1 ∈ [200; 401; 404; 422]
  | DELETE _ => status (handle u r rows).1 ∈ [204; 401; 404]
  end ∧
  (route title_validate amount_validate u r (mkDB rows rows)).1
    ≠ inl InternalServerError.
Proof.
  destruct r as [payload| |id|id payload|id]; cbn [route].
  - rewrite handle_POST, create_expense_session.
    destruct (load false payload) as [?|data] eqn:Hload;
      [split; [set_solver|done]|].
    destruct (load_full_inr _ _ Hload) as (? & t & a & _ & _ & _ & ->).
    split; [set_solver|done].
  - done.
  - rewrite handle_GET, get_expense_session.
    destruct (rows !! id); [|split; [set_solver|done]].
    case_bool_decide; (split; [set_solver|done]).
  - rewrite handle_PATCH, update_expense_session.
    destruct (rows !! id); [|split; [set_solver|done]].
    case_bool_decide; [split; [set_solver|done]|].
    destruct (load true payload); (split; [set_solver|done]).
  - rewrite handle_DELETE, delete_expense_session.
    destruct (rows !! id); [|split; [set_solver|done]].
    case_bool_decide; (split; [set_solver|done]).
Qed.

(** X2. [get_expenses] and [get_expense] only read: whatever they
    answer, the table is as it was and their session holds no pending
    change. *)
Theorem reads_change_nothing u rows :
  (handle u GET_all rows).2 = rows ∧
  (get_expenses u (mkDB rows rows)).2 = mkDB rows rows ∧
  ∀ id,
    (handle u (GET id) rows).2 = rows ∧
    (get_expense u id (mkDB rows rows)).2 = mkDB rows rows.
Proof.
  split; [done|]. split; [done|]. intros id.
  rewrite handle_GET, get_expense_session.
  destruct (rows !! id); [|done]. by case_bool_decide.
Qed.


(** Where a request changes the table, the row belonged to the caller
    before, if there was one, and belongs to the caller after, if there
    is one. *)
Lemma handle_changes_own u r rows j :
  (handle u r rows).2 !! j = rows !! j ∨
  ((∀ e, rows !! j = Some e → user_id e = User_id u) ∧
   (∀ e', (handle u r rows).2 !! j = Some e' → user_id e' = User_id u)).
Proof.
  destruct r as [payload| |id|id payload|id].
  - rewrite handle_POST.
    destruct (load false payload) as [?|data]; [by left|].
    destruct (in_title data) as [t|], (in_amount data) as [a|];
      try by left.
    cbn. destruct (decide (fresh (dom rows) = j)) as [<-|Hne].
    + right. rewrite lookup_insert_eq, fresh_id_unused.
      split; [done|]. by intros e' [= <-].
    + left. by rewrite lookup_insert_ne.
  - by left.
  - left. rewrite handle_GET. destruct (rows !! id); [|done].
    by case_bool_decide.
  - rewrite handle_PATCH. destruct (rows !! id) as [e0|] eqn:He0; [|by left].
    case_bool_decide as Hown; [by left|].
    assert (user_id e0 = User_id u) as Hu
      by by destruct (decide (user_id e0 = User_id u)).
    destruct (load true payload) as [?|data]; [by left|]. cbn.
    destruct (decide (id = j)) as [<-|Hne].
    + right. rewrite lookup_insert_eq, He0.
      split; [by intros e [= <-]|]. by intros e' [= <-].
    + left. by rewrite lookup_insert_ne.
  - rewrite handle_DELETE. destruct (rows !! id) as [e0|] eqn:He0; [|by left].
    case_bool_decide as Hown; [by left|].
    assert (user_id e0 = User_id u) as Hu
      by by destruct (decide (user_id e0 = User_id u)).
    cbn. destruct (decide (id = j)) as [<-|Hne].
    + right. rewrite lookup_delete_eq, He0.
      split; [by intros e [= <-]|done].
    + left. by rewrite lookup_delete_ne.
Qed.

(** X4. Nobody but the owner changes a record: over any sequence of
    requests whose callers are all different from the owner of a
    record, the record stays in the table with the title, the amount
    and the owner it had. *)
Theorem foreign_records_untouched trace rows id e :
  rows !! id = Some e →
  Forall (λ step, User_id step.1 ≠ user_id e) trace →
  run trace rows !! id = Some e.
Proof.
  revert rows. induction trace as [|[u r] rest IH]; intros rows He Hothers.
  - done.
  - apply Forall_cons in Hothers as [Hu Hrest]. cbn in Hu. cbn.
    apply IH; [|done].
    destruct (handle_changes_own u r rows id) as [->|[Hown _]]; [done|].
    by destruct Hu; rewrite (Hown e He).
Qed.

(** X5. What a user lists is not changed by the requests of anybody
    else: after any request of [u], [get_expenses] answers another user
    as it did before. *)
Theorem others_lists_unchanged u u' r rows :
  User_id u ≠ User_id u' →
  (handle u' GET_all (handle u r rows).2).1 = (handle u' GET_all rows).1.
Proof.
  intros Hne. rewrite !handle_GET_all. cbn.
  enough (filter (λ row, user_id row.2 = User_id u') (handle u r rows).2
          = filter (λ row, user_id row.2 = User_id u') rows) as -> by done.
  apply map_eq. intros j. apply option_eq. intros e.
  rewrite !map_lookup_filter_Some. cbn.
  destruct (handle_changes_own u r rows j) as [->|[Hbefore Hafter]]; [done|].
  split; intros [He Hu'].
  - destruct Hne. by rewrite <- (Hafter e He).
  - destruct Hne. by rewrite <- (Hbefore e He).
Qed.



(** X7. After an update that succeeded, [get_expense] by the same
    caller on the same id answers 200 with the body that
    [update_expense] returned, and leaves the table as the update left
    it. *)
Theorem update_then_get u id payload rows :
  status (handle u (PATCH id payload) rows).1 = 200 →
  handle u (GET id) (handle u (PATCH id payload) rows).2
    = handle u (PATCH id payload) rows.
Proof.
  rewrite handle_PATCH. destruct (rows !! id) as [e|] eqn:He; [|discriminate].
  case_bool_decide as Hown; [discriminate|].
  destruct (load true payload) as [?|data]; [discriminate|]. cbn.
  intros _. rewrite handle_GET, lookup_insert_eq.
  change (user_id (updated data e)) with (user_id e).
  by rewrite bool_decide_eq_false_2 by (intros Hne; by apply Hne).
Qed.

(** Writing the same fields twice is writing them once. *)
Lemma updated_twice (data : @ExpenseIn number) e :
  updated data (updated data e) = updated data e.
Proof. unfold updated. by destruct (in_title data), (in_amount data). Qed.

(** X8. [update_expense] is idempotent: the same request a second time
    gets the same answer and leaves the same table as the first,
    whether that was 200, 401, 404 or 422. *)
Theorem update_twice u id payload rows :
  handle u (PATCH id payload) (handle u (PATCH id payload) rows).2
    = handle u (PATCH id payload) rows.
Proof.
  rewrite (handle_PATCH u id payload rows).
  destruct (rows !! id) as [e|] eqn:He; cbn.
  - case_bool_decide as Hown; cbn.
    + rewrite handle_PATCH, He. by rewrite bool_decide_eq_true_2.
    + destruct (load true payload) as [messages|data] eqn:Hload; cbn.
      * rewrite handle_PATCH, He, Hload.
        by rewrite bool_decide_eq_false_2 by (intros Hne; by apply Hne).
      * rewrite handle_PATCH, lookup_insert_eq, Hload.
        change (user_id (updated data e)) with (user_id e).
        rewrite bool_decide_eq_false_2 by (intros Hne; by apply Hne).
        by rewrite updated_twice, insert_insert_eq.
  - by rewrite handle_PATCH, He.
Qed.

(** A partial load of two objects put together, the second over the
    first, returns each field from the second where it has it and from
    the first where not. *)
Lemma load_field_union {A} (deserialize : @json number → list string + A)
    raw1 raw2 o1 o2 :
  load_field true deserialize raw1 = inr o1 →
  load_field true deserialize raw2 = inr o2 →
  load_field true deserialize (raw2 ∪ raw1) = inr (o2 ∪ o1).
Proof.
  intros H1 H2. destruct raw2 as [v2|].
  - apply load_field_inr in H2 as (a & Ha & ->).
    assert (Some v2 ∪ raw1 = Some v2) as -> by by destruct raw1.
    cbn. rewrite Ha. by destruct o1.
  - apply load_field_inr in H2 as [_ ->].
    by rewrite !(left_id_L None _).
Qed.

Lemma load_union (fields1 fields2 : gmap string (@json number)) data1 data2 :
  load true (JObj fields1) = inr data1 →
  load true (JObj fields2) = inr data2 →
  load true (JObj (fields2 ∪ fields1))
    = inr (mkExpenseIn (in_title data2 ∪ in_title data1)
                       (in_amount data2 ∪ in_amount data1)).
Proof.
  intros (f1 & [= <-] & Ht1 & Ha1)%load_inr (f2 & [= <-] & Ht2 & Ha2)%load_inr.
  cbn. rewrite !lookup_union.
  rewrite (load_field_union _ _ _ _ _ Ht1 Ht2).
  by rewrite (load_field_union _ _ _ _ _ Ha1 Ha2).
Qed.

Lemma updated_updated (data1 data2 : @ExpenseIn number) e :
  updated data2 (updated data1 e)
  = updated (mkExpenseIn (in_title data2 ∪ in_title data1)
                         (in_amount data2 ∪ in_amount data1)) e.
Proof.
  unfold updated. cbn.
  by destruct (in_title data1), (in_title data2),
    (in_amount data1), (in_amount data2).
Qed.

(** X9. Updates compose: two objects that validate in partial mode,
    sent one after the other to the same id, get from the second
    request the answer, and leave the table, that the single request
    with the second object laid over the first would. *)
Theorem updates_compose u id (fields1 fields2 : gmap string (@json number))
    data1 data2 rows :
  load true (JObj fields1) = inr data1 →
  load true (JObj fields2) = inr data2 →
  handle u (PATCH id (JObj fields2))
    (handle u (PATCH id (JObj fields1)) rows).2
  = handle u (PATCH id (JObj (fields2 ∪ fields1))) rows.
Proof.
  intros Hload1 Hload2.
  pose proof (load_union _ _ _ _ Hload1 Hload2) as Hload12.
  rewrite (handle_PATCH u id (JObj fields1) rows).
  rewrite (handle_PATCH u id (JObj (fields2 ∪ fields1)) rows).
  rewrite Hload1, Hload12.
  destruct (rows !! id) as [e|] eqn:He; cbn.
  - case_bool_decide as Hown; cbn.
    + rewrite handle_PATCH, He. by rewrite bool_decide_eq_true_2.
    + rewrite handle_PATCH, lookup_insert_eq, Hload2.
      change (user_id (updated data1 e)) with (user_id e).
      rewrite bool_decide_eq_false_2 by (intros Hne; by apply Hne).
      by rewrite updated_updated, insert_insert_eq.
  - by rewrite handle_PATCH, He.
Qed.

(** X10. [get_expenses] and [get_expense] agree: a record is in the
    list that a user gets exactly when [get_expense] on its id answers
    that user 200 with that record. *)
Theorem listed_iff_fetchable u rows es x :
  (handle u GET_all rows).1 = (JsonExpenses es, 200) →
  x ∈ es ↔ (handle u (GET (out_id x)) rows).1 = (JsonExpense x, 200).
Proof.
  rewrite handle_GET_all. intros [= <-].
  rewrite list_elem_of_fmap, handle_GET. split.
  - intros ([id e] & -> & Hin).
    apply elem_of_map_to_list, map_lookup_filter_Some in Hin as [He Hu].
    cbn in *. rewrite He.
    by rewrite bool_decide_eq_false_2 by (intros Hne; by apply Hne).
  - destruct (rows !! out_id x) as [e|] eqn:He; [|discriminate].
    case_bool_decide as Hown; [discriminate|]. cbn. intros [= <-].
    exists (out_id (dump (out_id x) e), e). split; [done|].
    by apply elem_of_map_to_list, map_lookup_filter_Some.
Qed.

(** X11. The status tells what happened to the table: a 201 added one
    row, a 204 removed one, and after every other answer the table has
    the ids it had. *)
Theorem table_size_by_status u r rows :
  (status (handle u r rows).1 = 201 →
     size (handle u r rows).2 = S (size rows)) ∧
  (status (handle u r rows).1 = 204 →
     S (size (handle u r rows).2) = size rows) ∧
  (status (handle u r rows).1 ≠ 201 → status (handle u r rows).1 ≠ 204 →
     dom (handle u r rows).2 = dom rows).
Proof.
  destruct r as [payload| |id|id payload|id].
  - rewrite handle_POST.
    destruct (load false payload) as [?|data]; [done|].
    destruct (in_title data), (in_amount data); try done. cbn.
    split; [|done]. intros _. apply map_size_insert_None, fresh_id_unused.
  - done.
  - rewrite handle_GET. destruct (rows !! id); [|done].
    by case_bool_decide.
  - rewrite handle_PATCH. destruct (rows !! id) as [e|] eqn:He; [|done].
    case_bool_decide; [done|].
    destruct (load true payload); [done|]. cbn.
    split; [done|]. split; [done|]. intros _ _.
    by apply dom_insert_lookup_L.
  - rewrite handle_DELETE. destruct (rows !! id) as [e|] eqn:He; [|done].
    case_bool_decide; [done|]. cbn.
    split; [done|]. split; [|done]. intros _.
    rewrite <- (insert_delete_id rows id e He) at 2.
    symmetry. apply map_size_insert_None, lookup_delete_eq.
Qed.

(** X12. Two creations in a row get two different ids, and each creator
    then reads its own record back under its id. *)
Theorem create_twice_distinct_ids u1 u2 payload1 payload2 data1 data2 rows :
  load false payload1 = inr data1 →
  load false payload2 = inr data2 →
  ∃ out1 out2,
    (handle u1 (POST payload1) rows).1 = (JsonExpense out1, 201) ∧
    (handle u2 (POST payload2) (handle u1 (POST payload1) rows).2).1
      = (JsonExpense out2, 201) ∧
    out_id out1 ≠ out_id out2 ∧
    let rows' :=
      (handle u2 (POST payload2) (handle u1 (POST payload1) rows).2).2 in
    (handle u1 (GET (out_id out1)) rows').1 = (JsonExpense out1, 200) ∧
    (handle u2 (GET (out_id out2)) rows').1 = (JsonExpense out2, 200).
Proof.
  intros Hload1 Hload2.
  destruct (load_full_inr _ _ Hload1) as (f1 & t1 & a1 & _ & _ & _ & ->).
  destruct (load_full_inr _ _ Hload2) as (f2 & t2 & a2 & _ & _ & _ & ->).
  rewrite (handle_POST u1 payload1 rows), Hload1. cbn.
  set (id1 := fresh (dom rows)).
  set (rows1 := <[id1 := mkExpense t1 a1 (User_id u1)]> rows).
  rewrite (handle_POST u2 payload2 rows1), Hload2. cbn.
  set (id2 := fresh (dom rows1)).
  assert (id1 ≠ id2) as Hne.
  { intros Heq. pose proof (fresh_id_unused rows1) as Hf. fold id2 in Hf.
    rewrite <- Heq in Hf. unfold rows1 in Hf.
    by rewrite lookup_insert_eq in Hf. }
  exists (mkExpenseOut id1 t1 a1), (mkExpenseOut id2 t2 a2).
  split; [done|]. split; [done|]. split; [done|].
  cbn zeta. rewrite !handle_GET. cbn.
  rewrite lookup_insert_ne, lookup_insert_eq by done.
  unfold rows1. rewrite lookup_insert_eq. cbn.
  by rewrite !bool_decide_eq_false_2 by (intros H'; by apply H').
Qed.

(** X13. A row leaves the table in one way only: a request removes the
    record of an id exactly when it is the [DELETE] of that id by the
    record's owner. *)
Theorem removed_only_by_owner_delete u r rows id e :
  rows !! id = Some e →
  (handle u r rows).2 !! id = None ↔
  r = DELETE id ∧ user_id e = User_id u.
Proof.
  intros He. split.
  - intros Hgone.
    destruct (handle_keeps_owner u r rows id e He)
      as [(e' & He' & _)|(Hr & Hu & _)]; [congruence|done].
  - intros [-> Hu]. rewrite handle_DELETE, He.
    rewrite bool_decide_eq_false_2 by (intros Hne; by apply Hne).
    apply lookup_delete_eq.
Qed.

(** What [get_expenses] lists: the serializations of the caller's rows. *)
Lemma elem_of_listed u rows es x :
  (handle u GET_all rows).1 = (JsonExpenses es, 200) →
  x ∈ es ↔
  ∃ id e, rows !! id = Some e ∧ user_id e = User_id u ∧ x = dump id e.
Proof.
  rewrite handle_GET_all. intros [= <-]. rewrite list_elem_of_fmap. split.
  - intros ([id e] & -> & Hin). exists id, e.
    by apply elem_of_map_to_list, map_lookup_filter_Some in Hin as [He Hu].
  - intros (id & e & He & Hu & ->). exists (id, e). split; [done|].
    by apply elem_of_map_to_list, map_lookup_filter_Some.
Qed.

(** X14. After a creation that succeeded, the creator's list is the list
    of before with the record that [create_expense] returned. *)
Theorem list_after_create u payload rows out es es' x :
  (handle u (POST payload) rows).1 = (JsonExpense out, 201) →
  (handle u GET_all rows).1 = (JsonExpenses es, 200) →
  (handle u GET_all (handle u (POST payload) rows).2).1
    = (JsonExpenses es', 200) →
  x ∈ es' ↔ x ∈ es ∨ x = out.
Proof.
  intros Hpost Hes Hes'.
  rewrite (elem_of_listed _ _ _ _ Hes), (elem_of_listed _ _ _ _ Hes').
  clear Hes Hes'. revert Hpost. rewrite handle_POST.
  destruct (load false payload) as [?|data]; [discriminate|].
  destruct (in_title data) as [t|], (in_amount data) as [a|];
    try discriminate.
  cbn. intros [= <-]. pose proof (fresh_id_unused rows) as Hfresh.
  split.
  - intros (id & e & He & Hu & ->).
    apply lookup_insert_Some in He as [[<- <-]|[Hne He]]; [by right|].
    left. by exists id, e.
  - intros [(id & e & He & Hu & ->)| ->].
    + exists id, e. split; [|done].
      rewrite lookup_insert_ne; [done|]. congruence.
    + eexists _, _. by rewrite lookup_insert_eq.
Qed.

(** X15. After a deletion that succeeded, the owner's list is the list
    of before without the record of that id. *)
Theorem list_after_delete u id rows es es' x :
  status (handle u (DELETE id) rows).1 = 204 →
  (handle u GET_all rows).1 = (JsonExpenses es, 200) →
  (handle u GET_all (handle u (DELETE id) rows).2).1
    = (JsonExpenses es', 200) →
  x ∈ es' ↔ x ∈ es ∧ out_id x ≠ id.
Proof.
  intros Hdel Hes Hes'.
  rewrite (elem_of_listed _ _ _ _ Hes), (elem_of_listed _ _ _ _ Hes').
  clear Hes Hes'. revert Hdel. rewrite handle_DELETE.
  destruct (rows !! id) as [e0|] eqn:He0; [|discriminate].
  case_bool_decide; [discriminate|]. cbn. intros _.
  split.
  - intros (j & e & He & Hu & ->).
    apply lookup_delete_Some in He as [Hne He].
    split; [by exists j, e|]. cbn. congruence.
  - intros [(j & e & He & Hu & ->) Hne]. cbn in Hne.
    exists j, e. split; [|done].
    apply lookup_delete_Some. split; [congruence|done].
Qed.

End Properties.

(** * The claims on the concrete instance *)

Local Abbreviation handleZ := (handle nonempty_title nonnegative_amount).
Local Abbreviation loadZ := (load nonempty_title nonnegative_amount).

(** [test_no_expenses_list] of [tests/espense_test.py], with Carol as
    the second user. *)
Example test_no_expenses_list :
  (handleZ carol GET_all sample_rows).1 = (JsonExpenses [], 200).
Proof. vm_compute. reflexivity. Qed.

(** [test_expenses_list] *)
Example test_expenses_list :
  (handleZ alice GET_all sample_rows).1
    = (JsonExpenses [mkExpenseOut 1 "Rent" 500%Z], 200).
Proof. vm_compute. reflexivity. Qed.

(** [test_full_expense_flow]: the store hands out the id 3. *)
Example test_full_expense_flow :
  let created := handleZ alice (POST post_payload) sample_rows in
  let received := handleZ alice (GET 3) created.2 in
  let updated_res := handleZ alice (PATCH 3 patch_payload) received.2 in
  let deleted := handleZ alice (DELETE 3) updated_res.2 in
  let gone := handleZ alice (GET 3) deleted.2 in
  created.1 = (JsonExpense (mkExpenseOut 3 "Expense" 100%Z), 201) ∧
  received.1 = (JsonExpense (mkExpenseOut 3 "Expense" 100%Z), 200) ∧
  updated_res.1
    = (JsonExpense (mkExpenseOut 3 "Updated Expense" 100%Z), 200) ∧
  deleted.1 = (EmptyBody, 204) ∧
  gone.1 = (AbortPage, 404) ∧
  gone.2 = sample_rows.
Proof. vm_compute. repeat split. Qed.

Lemma sample_rows_1 : sample_rows !! 1 = Some (mkExpense "Rent" 500%Z 1).
Proof. reflexivity. Defined.

Lemma sample_rows_2 : sample_rows !! 2 = Some (mkExpense "Food" 70%Z 2).
Proof. reflexivity. Defined.

Lemma sample_rows_7 : sample_rows !! 7 = None.
Proof. reflexivity. Defined.

(** Alice on Bob's expense 2, and on the id 7 that nobody has. *)
Lemma foreign_or_missing_id_witness :
  ((handleZ alice (GET 2) sample_rows).1 = (JsonError no_access, 401) ∧
   (handleZ alice (PATCH 2 bad_payload) sample_rows).1
     = (JsonError no_access_update, 401) ∧
   (handleZ alice (DELETE 2) sample_rows).1 = (JsonError no_access, 401)) ∧
  ((handleZ alice (GET 7) sample_rows).1 = (AbortPage, 404) ∧
   (handleZ alice (PATCH 7 bad_payload) sample_rows).1 = (AbortPage, 404) ∧
   (handleZ alice (DELETE 7) sample_rows).1 = (AbortPage, 404)).
Proof.
  split.
  - apply (foreign_or_missing_id nonempty_title nonnegative_amount
             alice 2 bad_payload sample_rows) with (e := mkExpense "Food" 70%Z 2).
    + exact sample_rows_2.
    + cbn. discriminate.
  - apply (foreign_or_missing_id nonempty_title nonnegative_amount
             alice 7 bad_payload sample_rows).
    exact sample_rows_7.
Defined.

(** Alice posts the payload of the test, then reads the new record. *)
Lemma create_then_get_witness :
  ∃ fields t a id,
    post_payload = JObj fields ∧
    fields !! "title" = Some (JStr t) ∧
    fields !! "amount" = Some (JNum a) ∧
    sample_rows !! id = None ∧
    let rows' := <[id := mkExpense t a (User_id alice)]> sample_rows in
    handleZ alice (POST post_payload) sample_rows
      = ((JsonExpense (mkExpenseOut id t a), 201), rows') ∧
    size rows' = S (size sample_rows) ∧
    handleZ alice (GET id) rows'
      = ((JsonExpense (mkExpenseOut id t a), 200), rows').
Proof.
  apply (create_then_get nonempty_title nonnegative_amount alice post_payload
           (mkExpenseIn (Some "Expense") (Some 100%Z)) sample_rows).
  vm_compute. reflexivity.
Defined.

(** Carol owns nothing and gets the empty list. *)
Lemma list_owned_witness :
  handleZ carol GET_all sample_rows = ((JsonExpenses [], 200), sample_rows).
Proof.
  destruct (list_owned nonempty_title nonnegative_amount carol sample_rows)
    as (es & Hes & _ & _ & Hnone).
  rewrite Hes, Hnone; [reflexivity|].
  intros id e He. unfold sample_rows in He.
  apply lookup_insert_Some in He as [[_ <-]|[_ He]]; [cbn; discriminate|].
  apply lookup_insert_Some in He as [[_ <-]|[_ He]]; [cbn; discriminate|].
  rewrite lookup_empty in He. discriminate.
Defined.

(** Alice patches the title of her expense 1 and the amount stays. *)
Lemma partial_update_witness :
  ∃ fields e',
    patch_payload = JObj fields ∧
    handleZ alice (PATCH 1 patch_payload) sample_rows
      = ((JsonExpense (dump 1 e'), 200), <[1 := e']> sample_rows) ∧
    (fields !! "title" = None → title e' = "Rent") ∧
    (∀ v, fields !! "title" = Some v → v = JStr (title e')) ∧
    (fields !! "amount" = None → amount e' = 500%Z) ∧
    (∀ v, fields !! "amount" = Some v → v = JNum (amount e')) ∧
    user_id e' = 1.
Proof.
  apply (partial_update nonempty_title nonnegative_amount alice 1 patch_payload
           (mkExpenseIn (Some "Updated Expense") None) sample_rows
           (mkExpense "Rent" 500%Z 1)).
  - exact sample_rows_1.
  - reflexivity.
  - vm_compute. reflexivity.
Defined.

(** Alice deletes her expense 1; nobody finds it afterwards, neither
    at once nor after the three requests of [quiet_trace]. *)
Lemma delete_then_missing_witness :
  handleZ alice (DELETE 1) sample_rows
    = ((EmptyBody, 204), delete 1 sample_rows) ∧
  (handleZ alice (DELETE 1) (delete 1 sample_rows)).1 = (AbortPage, 404) ∧
  (handleZ bob (GET 1)
     (run nonempty_title nonnegative_amount quiet_trace
        (delete 1 sample_rows))).1 = (AbortPage, 404).
Proof.
  destruct (delete_then_missing nonempty_title nonnegative_amount alice 1
              sample_rows (mkExpense "Rent" 500%Z 1) sample_rows_1 eq_refl)
    as (Hdel & _ & Hafter).
  split; [exact Hdel|]. split.
  - apply (Hafter alice []). constructor.
  - apply (Hafter bob quiet_trace).
    unfold quiet_trace. repeat constructor; cbn; discriminate.
Defined.

(** The payload with an empty title and a null amount is rejected by
    both handlers, with the messages of both fields. *)
Lemma validation_failure_witness :
  status (handleZ alice (POST bad_payload) sample_rows).1 = 422 ∧
  status (handleZ alice (PATCH 1 bad_payload) sample_rows).1 = 422 ∧
  (∃ messages, loadZ true bad_payload = inl messages ∧
     messages !! "title" = Some ["Shorter than minimum length 1."]) ∧
  (∃ messages, loadZ true bad_payload = inl messages ∧
     messages !! "amount" = Some ["Not a valid number."]).
Proof.
  destruct (validation_failure nonempty_title nonnegative_amount alice
              bad_payload sample_rows) as (Hpost & Hpatch & Htitle & Hamount).
  split; [|split; [|split]].
  - destruct (loadZ false bad_payload) as [messages|data] eqn:Hload.
    + by rewrite (Hpost messages).
    + vm_compute in Hload. discriminate.
  - destruct (loadZ true bad_payload) as [messages|data] eqn:Hload.
    + rewrite (Hpatch messages 1 (mkExpense "Rent" 500%Z 1)); try done.
    + vm_compute in Hload. discriminate.
  - by eapply Htitle.
  - by eapply Hamount.
Defined.

(** Alice's attempt to delete Bob's expense fails and writes nothing. *)
Lemma failure_leaves_store_witness :
  (handleZ alice (DELETE 2) sample_rows).2 = sample_rows ∧
  (route nonempty_title nonnegative_amount alice (DELETE 2)
     (mkDB sample_rows sample_rows)).2 = mkDB sample_rows sample_rows.
Proof.
  apply (failure_leaves_store nonempty_title nonnegative_amount alice
           (DELETE 2) sample_rows).
  right. left. vm_compute. reflexivity.
Defined.

(** Carol posts the payload of the test: the row that is stored is
    hers. Whatever row Bob's post adds is his. Expense 2 is still Bob's
    after the sample session. *)
Lemma owner_never_changes_witness :
  (∃ id e, sample_rows !! id = None ∧
     handleZ carol (POST post_payload) sample_rows
       = ((JsonExpense (dump id e), 201), <[id := e]> sample_rows) ∧
     user_id e = 3) ∧
  (∀ e', (handleZ bob (POST post_payload) sample_rows).2 !! 3 = Some e' →
     (∃ payload, POST post_payload = POST payload) ∧ user_id e' = 2) ∧
  (∃ e', run nonempty_title nonnegative_amount sample_trace sample_rows !! 2
           = Some e' ∧
         user_id e' = 2).
Proof.
  split; [|split].
  - destruct (owner_never_changes nonempty_title nonnegative_amount carol
                sample_rows) as (Hcreate & _).
    apply (Hcreate post_payload (mkExpenseIn (Some "Expense") (Some 100%Z))).
    vm_compute. reflexivity.
  - destruct (owner_never_changes nonempty_title nonnegative_amount bob
                sample_rows) as (_ & Hadds & _).
    intros e'. apply (Hadds (POST post_payload) 3 e'). reflexivity.
  - destruct (owner_never_changes nonempty_title nonnegative_amount alice
                sample_rows) as (_ & _ & _ & _ & _ & Htrace & _).
    apply (Htrace sample_trace 2 (mkExpense "Food" 70%Z 2)).
    + exact sample_rows_2.
    + unfold sample_trace. repeat constructor; cbn; discriminate.
Defined.

(** Alice sends the malformed payload to Bob's expense: 401, not 422. *)
Lemma update_checks_owner_first_witness :
  handleZ alice (PATCH 2 bad_payload) sample_rows
    = ((JsonError no_access_update, 401), sample_rows) ∧
  status (handleZ alice (PATCH 2 bad_payload) sample_rows).1 ≠ 422.
Proof.
  apply (update_checks_owner_first nonempty_title nonnegative_amount alice 2
           bad_payload sample_rows (mkExpense "Food" 70%Z 2)).
  - exact sample_rows_2.
  - cbn. discriminate.
Defined.

(** Alice patches her expense 1 with the empty object. *)
Lemma empty_update_is_identity_witness :
  handleZ alice (PATCH 1 (JObj ∅)) sample_rows
    = ((JsonExpense (mkExpenseOut 1 "Rent" 500%Z), 200), sample_rows).
Proof.
  apply (empty_update_is_identity nonempty_title nonnegative_amount alice 1
           sample_rows (mkExpense "Rent" 500%Z 1)).
  - exact sample_rows_1.
  - reflexivity.
Defined.

(** * The further properties on the concrete instance *)


(** Bob and Carol try their best on Alice's expense 1. *)
Lemma foreign_records_untouched_witness :
  run nonempty_title nonnegative_amount foreign_trace sample_rows !! 1
    = Some (mkExpense "Rent" 500%Z 1).
Proof.
  apply (foreign_records_untouched nonempty_title nonnegative_amount
           foreign_trace sample_rows 1 (mkExpense "Rent" 500%Z 1)).
  - exact sample_rows_1.
  - unfold foreign_trace. repeat constructor; cbn; discriminate.
Defined.

(** Alice deletes her expense; Bob lists what he listed before. *)
Lemma others_lists_unchanged_witness :
  (handleZ bob GET_all (handleZ alice (DELETE 1) sample_rows).2).1
    = (handleZ bob GET_all sample_rows).1.
Proof.
  apply (others_lists_unchanged nonempty_title nonnegative_amount alice bob
           (DELETE 1) sample_rows).
  cbn. discriminate.
Defined.


(** Alice patches her expense 1 and reads it back. *)
Lemma update_then_get_witness :
  handleZ alice (GET 1) (handleZ alice (PATCH 1 patch_payload) sample_rows).2
    = handleZ alice (PATCH 1 patch_payload) sample_rows.
Proof.
  apply (update_then_get nonempty_title nonnegative_amount alice 1
           patch_payload sample_rows).
  vm_compute. reflexivity.
Defined.

(** Alice patches the title, then the amount: as if she had patched
    both at once. *)
Lemma updates_compose_witness :
  handleZ alice (PATCH 1 (JObj amount_fields))
    (handleZ alice (PATCH 1 (JObj title_fields)) sample_rows).2
  = handleZ alice (PATCH 1 (JObj (amount_fields ∪ title_fields))) sample_rows.
Proof.
  apply (updates_compose nonempty_title nonnegative_amount alice 1
           title_fields amount_fields
           (mkExpenseIn (Some "Updated Expense") None)
           (mkExpenseIn None (Some 250%Z)) sample_rows).
  - vm_compute. reflexivity.
  - vm_compute. reflexivity.
Defined.

(** Alice's one expense is listed and fetched. *)
Lemma listed_iff_fetchable_witness :
  mkExpenseOut 1 "Rent" 500%Z ∈ [mkExpenseOut 1 "Rent" 500%Z] ↔
  (handleZ alice (GET 1) sample_rows).1
    = (JsonExpense (mkExpenseOut 1 "Rent" 500%Z), 200).
Proof.
  apply (listed_iff_fetchable nonempty_title nonnegative_amount alice
           sample_rows [mkExpenseOut 1 "Rent" 500%Z]
           (mkExpenseOut 1 "Rent" 500%Z)).
  vm_compute. reflexivity.
Defined.

(** Alice's deletion answers 204 and the table has one row less. *)
Lemma table_size_by_status_witness :
  S (size (handleZ alice (DELETE 1) sample_rows).2) = size sample_rows.
Proof.
  apply (table_size_by_status nonempty_title nonnegative_amount alice
           (DELETE 1) sample_rows).
  vm_compute. reflexivity.
Defined.

(** Alice and Bob post the same payload one after the other. *)
Lemma create_twice_distinct_ids_witness :
  ∃ out1 out2,
    (handleZ alice (POST post_payload) sample_rows).1
      = (JsonExpense out1, 201) ∧
    (handleZ bob (POST post_payload)
       (handleZ alice (POST post_payload) sample_rows).2).1
      = (JsonExpense out2, 201) ∧
    out_id out1 ≠ out_id out2 ∧
    let rows' :=
      (handleZ bob (POST post_payload)
         (handleZ alice (POST post_payload) sample_rows).2).2 in
    (handleZ alice (GET (out_id out1)) rows').1 = (JsonExpense out1, 200) ∧
    (handleZ bob (GET (out_id out2)) rows').1 = (JsonExpense out2, 200).
Proof.
  apply (create_twice_distinct_ids nonempty_title nonnegative_amount
           alice bob post_payload post_payload
           (mkExpenseIn (Some "Expense") (Some 100%Z))
           (mkExpenseIn (Some "Expense") (Some 100%Z)) sample_rows).
  - vm_compute. reflexivity.
  - vm_compute. reflexivity.
Defined.

(** Alice's expense 1 goes away by her own [DELETE 1]. *)
Lemma removed_only_by_owner_delete_witness :
  (handleZ alice (DELETE 1) sample_rows).2 !! 1 = None ↔
  @DELETE Z 1 = DELETE 1 ∧ 1 = User_id alice.
Proof.
  apply (removed_only_by_owner_delete nonempty_title nonnegative_amount
           alice (DELETE 1) sample_rows 1 (mkExpense "Rent" 500%Z 1)).
  exact sample_rows_1.
Defined.

(** Alice posts the payload of the test and lists two expenses. *)
Lemma list_after_create_witness :
  mkExpenseOut 3 "Expense" 100%Z
    ∈ [mkExpenseOut 3 "Expense" 100%Z; mkExpenseOut 1 "Rent" 500%Z] ↔
  mkExpenseOut 3 "Expense" 100%Z ∈ [mkExpenseOut 1 "Rent" 500%Z] ∨
  mkExpenseOut 3 "Expense" 100%Z = mkExpenseOut 3 "Expense" 100%Z.
Proof.
  apply (list_after_create nonempty_title nonnegative_amount alice
           post_payload sample_rows).
  - vm_compute. reflexivity.
  - vm_compute. reflexivity.
  - vm_compute. reflexivity.
Defined.

(** Alice deletes her one expense and lists none. *)
Lemma list_after_delete_witness :
  mkExpenseOut 1 "Rent" 500%Z ∈ [] ↔
  mkExpenseOut 1 "Rent" 500%Z ∈ [mkExpenseOut 1 "Rent" 500%Z] ∧
  out_id (mkExpenseOut 1 "Rent" 500%Z) ≠ 1.
Proof.
  apply (list_after_delete nonempty_title nonnegative_amount alice 1
           sample_rows).
  - vm_compute. reflexivity.
  - vm_compute. reflexivity.
  - vm_compute. reflexivity.
Defined.
